(** * ArchiveChain: the [simple_archive.py] example script

    A shallow embedding of [examples/basic/simple_archive.py]: the two
    coroutines [archive_url] and [get_archive_info] and the entry point
    [main].  The script is glue around the ArchiveChain SDK, so the
    embedding records, in order, every line the script prints and every call
    it makes on the SDK client, together with the way the run ends (normal
    return, a propagating exception, or [sys.exit]). *)

From Stdlib Require Import String Ascii ZArith DecimalString.
From stdpp Require Import gmap strings list.

Local Open Scope string_scope.
Local Open Scope list_scope.

(** ** Python values the script only formats *)

(** A value that is looked at only through an f-string replacement field.
    A float is carried as its [repr] text. *)
Inductive pyvalue : Type :=
| PyNone
| PyStr (s : string)
| PyInt (z : Z)
| PyFloat (repr : string).

(** [format v] is the text that [f"{v}"] produces. *)
Definition format (v : pyvalue) : string :=
  match v with
  | PyNone => "None"
  | PyStr s => s
  | PyInt z => NilZero.string_of_int (Z.to_int z)
  | PyFloat repr => repr
  end.

(** ** Exceptions *)

(** The classes of exception the SDK and the interpreter may raise; every
    one of them derives from [Exception]. *)
Inductive exn_class : Type :=
| ValidationError
| TransportError
| NotFoundError
| IndexError
| OtherException.

(** An exception object: its class and the text of [str(e)]. *)
Record exn : Type := Exn { exn_type : exn_class; exn_str : string }.

Inductive result (A : Type) : Type :=
| Ok (a : A)
| Err (e : exn).
Arguments Ok {A} a.
Arguments Err {A} e.

(** ** The SDK's data, as far as the script touches it *)

Record ArchiveMetadata : Type := {
  title : string;
  description : string;
  tags : list string;
  priority : string
}.

Record ArchiveOptions : Type := {
  include_assets : bool;
  max_depth : Z;
  preserve_javascript : bool;
  timeout : Z
}.

(** Modelled from the spec: the SDK's result of [archives.create]
    (ArchiveHandle), whose declaration is not in this repository. *)
Record ArchiveResult : Type := {
  archive_id : string;
  result_status : pyvalue;
  total_cost : pyvalue   (* cost_estimation.total_cost *)
}.

(** Modelled from the spec: the SDK's stream item (ArchiveStatusUpdate),
    whose declaration is not in this repository. *)
Record ArchiveStatusUpdate : Type := {
  status : string;
  progress : pyvalue;
  phase : pyvalue;
  final_size : pyvalue;
  access_view : pyvalue;   (* access_urls.view *)
  error : pyvalue
}.

(** Modelled from the spec: the SDK's result of [archives.get]
    (ArchiveRecord), whose declaration is not in this repository. *)
Record Archive : Type := {
  archive_url_field : pyvalue;        (* url *)
  archive_title : pyvalue;            (* metadata.title *)
  archive_status : pyvalue;           (* status *)
  archive_size : pyvalue;             (* size *)
  created_at : pyvalue;
  replicas : list pyvalue;
  integrity_score : pyvalue;          (* storage_info.integrity_score *)
  archive_view : pyvalue              (* access_urls.view *)
}.

(** The asynchronous iterator behind [client.stream.archive_updates]: the
    updates it delivers, in order, and how it ends after the last of them
    ([None]: exhausted, [Some e]: the next request raises [e]). *)
Record update_stream : Type := {
  updates : list ArchiveStatusUpdate;
  ending : option exn
}.

(** Modelled from the spec: the client capability, whose class is not in
    this repository.  Each field answers one call of the script. *)
Record ArchiveChainClient : Type := {
  archives_create : string -> ArchiveMetadata -> ArchiveOptions -> result ArchiveResult;
  stream_archive_updates : string -> result update_stream;
  archives_get : string -> result Archive;
  close : option exn   (* [Some e]: [close()] raises [e] *)
}.

(** The constructor [ArchiveChainClient(api_key=, api_url=, network=)];
    [network] is [None] when the keyword is not passed.  Building the client
    object is taken to succeed; every awaited call on it may raise. *)
Definition SDK : Type :=
  option string -> string -> option string -> ArchiveChainClient.

(** ** Observable events *)

Inductive event : Type :=
| Print (line : string)
| NewClient (api_key : option string) (api_url : string) (network : option string)
| ArchivesCreate (url : string) (metadata : ArchiveMetadata) (options : ArchiveOptions)
| StreamArchiveUpdates (id : string)
| StreamNext
| StreamExit
| ArchivesGet (id : string)
| Close.

(** ** A small monad for the script's control flow *)

Inductive outcome (A : Type) : Type :=
| Returned (a : A)
| Raised (e : exn)
| SystemExit (code : Z).
Arguments Returned {A} a.
Arguments Raised {A} e.
Arguments SystemExit {A} code.

(** A run: the events so far and how the run ended. *)
Definition Py (A : Type) : Type := (list event * outcome A)%type.

Definition ret {A} (a : A) : Py A := ([], Returned a).

Definition bind {A B} (m : Py A) (k : A -> Py B) : Py B :=
  match m with
  | (t, Returned a) => let '(t', o) := k a in (t ++ t', o)
  | (t, Raised e) => (t, Raised e)
  | (t, SystemExit c) => (t, SystemExit c)
  end.

Declare Scope py_scope.
Delimit Scope py_scope with py.
Notation "x <- m ;; k" := (bind m (fun x => k))
  (at level 100, m at next level, k at level 200, right associativity) : py_scope.
Notation "m ;; k" := (bind m (fun _ => k))
  (at level 100, k at level 200, right associativity) : py_scope.
Local Open Scope py_scope.

Definition tell (e : event) : Py unit := ([e], Returned tt).
Definition print (line : string) : Py unit := tell (Print line).
Definition raise {A} (e : exn) : Py A := ([], Raised e).
Definition sys_exit {A} (code : Z) : Py A := ([], SystemExit code).

Definition lift {A} (r : result A) : Py A :=
  match r with
  | Ok a => ret a
  | Err e => raise e
  end.

(** [try: body / except Exception as e: handler e]. [SystemExit] does not
    derive from [Exception] and passes through. *)
Definition try_except {A} (body : Py A) (handler : exn -> Py A) : Py A :=
  match body with
  | (t, Raised e) => let '(t', o) := handler e in (t ++ t', o)
  | _ => body
  end.

(** [try: body / finally: final]. The [finally] block always runs; when it
    raises, its exception replaces whatever the body was propagating. *)
Definition try_finally {A} (body : Py A) (final : Py unit) : Py A :=
  let '(t, o) := body in
  match final with
  | (t', Returned _) => (t ++ t', o)
  | (t', Raised e) => (t ++ t', Raised e)
  | (t', SystemExit c) => (t ++ t', SystemExit c)
  end.

(** The status the process exits with: 0 when [main] returns, the argument
    of [sys.exit], and 1 for an uncaught exception. *)
Definition exit_code {A} (run : Py A) : Z :=
  match snd run with
  | Returned _ => 0
  | Raised _ => 1
  | SystemExit c => c
  end.

(** [l[i]] on a list: [IndexError] out of range. *)
Definition item (l : list string) (i : nat) : Py string :=
  match l !! i with
  | Some x => ret x
  | None => raise (Exn IndexError "list index out of range")
  end.

Definition nl : string := String (ascii_of_nat 10) EmptyString.

(** [not s] for [s : str | None]. *)
Definition falsy (s : option string) : bool :=
  match s with
  | None => true
  | Some s => s =? ""
  end%string.

(** ** The script *)

Section Script.

(** The installed SDK, the process environment after [load_dotenv()], and
    the reading of [asyncio.get_event_loop().time()]. *)
Variable sdk : SDK.
Variable environ : gmap string string.
Variable loop_time : pyvalue.

(** [os.getenv(key)] and [os.getenv(key, default)]. *)
Definition getenv (key : string) : option string := environ !! key.
Definition getenv_default (key fallback : string) : string :=
  default fallback (environ !! key).

(** The body of [async for update in stream] (lines 70-80): one
    [StreamNext] per item requested; [break] ends the loop without asking
    for another item. *)
Fixpoint async_for_update (items : list ArchiveStatusUpdate)
    (stream_end : option exn) : Py unit :=
  match items with
  | [] =>
      tell StreamNext ;;
      match stream_end with
      | None => ret tt
      | Some e => raise e
      end
  | update :: rest =>
      tell StreamNext ;;
      if (status update =? "processing")%string then
        print ("   Progrès: " +:+ format (progress update) +:+ "% - "
               +:+ format (phase update)) ;;
        async_for_update rest stream_end
      else if (status update =? "completed")%string then
        print "🎉 Archive terminée!" ;;
        print ("   Taille finale: " +:+ format (final_size update) +:+ " bytes") ;;
        print ("   URL de visualisation: " +:+ format (access_view update))
      else if (status update =? "failed")%string then
        print ("❌ Échec de l'archivage: " +:+ format (error update))
      else
        async_for_update rest stream_end
  end.

(** [async with client.stream.archive_updates(id) as stream: body]:
    entering may raise; leaving ([StreamExit]) happens on every way out of
    the body and lets a propagating exception through. *)
Definition async_with_archive_updates (client : ArchiveChainClient)
    (id : string) (body : update_stream -> Py unit) : Py unit :=
  tell (StreamArchiveUpdates id) ;;
  stream <- lift (stream_archive_updates client id) ;;
  try_finally (body stream) (tell StreamExit).

(** [await client.close()]. *)
Definition client_close (client : ArchiveChainClient) : Py unit :=
  tell Close ;;
  match close client with
  | None => ret tt
  | Some e => raise e
  end.

Definition default_options : ArchiveOptions :=
  {| include_assets := true;
     max_depth := 2;
     preserve_javascript := false;
     timeout := 30 |}.

Definition default_metadata (url : string) : ArchiveMetadata :=
  {| title := "Archive de " +:+ url;
     description := "Archive automatique créée le " +:+ format loop_time;
     tags := ["example"; "simple"; "python"];
     priority := "normal" |}.

Definition archive_url (url : string) : Py unit :=
  let api_key := getenv "ARCHIVECHAIN_API_KEY" in
  let api_url := getenv_default "ARCHIVECHAIN_API_URL" "https://api.archivechain.org/v1" in
  let network := getenv_default "ARCHIVECHAIN_NETWORK" "mainnet" in
  tell (NewClient api_key api_url (Some network)) ;;
  let client := sdk api_key api_url (Some network) in
  try_finally
    (try_except
       (print ("🔗 Archivage de: " +:+ url) ;;
        let metadata := default_metadata url in
        let options := default_options in
        print "📦 Création de l'archive en cours..." ;;
        tell (ArchivesCreate url metadata options) ;;
        archive_result <- lift (archives_create client url metadata options) ;;
        print "✅ Archive créée avec succès!" ;;
        print ("   ID: " +:+ archive_id archive_result) ;;
        print ("   Statut: " +:+ format (result_status archive_result)) ;;
        print ("   Coût estimé: " +:+ format (total_cost archive_result) +:+ " ARC") ;;
        print (nl +:+ "📊 Surveillance du progrès...") ;;
        async_with_archive_updates client (archive_id archive_result)
          (fun stream => async_for_update (updates stream) (ending stream)))
       (fun e =>
          print ("❌ Erreur lors de l'archivage: " +:+ exn_str e) ;;
          sys_exit 1))
    (client_close client).

Definition get_archive_info (id : string) : Py unit :=
  let api_key := getenv "ARCHIVECHAIN_API_KEY" in
  let api_url := getenv_default "ARCHIVECHAIN_API_URL" "https://api.archivechain.org/v1" in
  tell (NewClient api_key api_url None) ;;
  let client := sdk api_key api_url None in
  try_finally
    (try_except
       (print ("🔍 Récupération des informations pour l'archive: " +:+ id) ;;
        tell (ArchivesGet id) ;;
        archive <- lift (archives_get client id) ;;
        print (nl +:+ "📋 Informations de l'archive:") ;;
        print ("   URL originale: " +:+ format (archive_url_field archive)) ;;
        print ("   Titre: " +:+ format (archive_title archive)) ;;
        print ("   Statut: " +:+ format (archive_status archive)) ;;
        print ("   Taille: " +:+ format (archive_size archive) +:+ " bytes") ;;
        print ("   Créée le: " +:+ format (created_at archive)) ;;
        print ("   Répliques: "
               +:+ format (PyInt (Z.of_nat (length (replicas archive))))) ;;
        print ("   Score d'intégrité: " +:+ format (integrity_score archive)) ;;
        print ("   URL de visualisation: " +:+ format (archive_view archive)))
       (fun e =>
          print ("❌ Erreur lors de la récupération: " +:+ exn_str e)))
    (client_close client).

(** [url.startswith(('http://', 'https://'))]. *)
Definition has_http_scheme (url : string) : bool :=
  String.prefix "http://" url || String.prefix "https://" url.

Definition main (argv : list string) : Py unit :=
  (if (length argv <? 2)%nat then
     print "Usage: python simple_archive.py <URL> [archive_id_to_check]" ;;
     print (nl +:+ "Exemples:") ;;
     print "  python simple_archive.py https://example.com" ;;
     print "  python simple_archive.py info arc_1234567890abcdef" ;;
     sys_exit 1
   else ret tt) ;;
  let api_key := getenv "ARCHIVECHAIN_API_KEY" in
  (if falsy api_key then
     print "❌ ARCHIVECHAIN_API_KEY non définie dans l'environnement" ;;
     print "   Créez un fichier .env avec votre clé API:" ;;
     print "   ARCHIVECHAIN_API_KEY=your-api-key-here" ;;
     sys_exit 1
   else ret tt) ;;
  command <- item argv 1 ;;
  if (command =? "info")%string && (3 <=? length argv)%nat then
    id <- item argv 2 ;;
    get_archive_info id
  else
    url <- item argv 1 ;;
    (if negb (has_http_scheme url) then
       print "❌ URL invalide. Doit commencer par http:// ou https://" ;;
       sys_exit 1
     else ret tt) ;;
    archive_url url.

End Script.

(** ** Reading a run *)

Definition trace {A} (run : Py A) : list event := fst run.

Definition is_client_call (e : event) : bool :=
  match e with
  | Print _ => false
  | _ => true
  end.

(** The calls a run makes on the SDK (constructor included), in order. *)
Definition client_calls {A} (run : Py A) : list event :=
  filter (fun e => is_client_call e = true) (trace run).

Definition is_close (e : event) : bool :=
  match e with
  | Close => true
  | _ => false
  end.

(** How many times [client.close()] is awaited in a run. *)
Definition close_count {A} (run : Py A) : nat :=
  length (filter (fun e => is_close e = true) (trace run)).

(** The lines a run prints, in order. *)
Definition printed {A} (run : Py A) : list string :=
  omap (fun e => match e with Print l => Some l | _ => None end) (trace run).

(** ** Test doubles for the client capability *)

Module Double.

Definition processing (percent : Z) (what : string) : ArchiveStatusUpdate :=
  {| status := "processing"; progress := PyInt percent; phase := PyStr what;
     final_size := PyNone; access_view := PyNone; error := PyNone |}.

Definition completed (size : Z) (view : string) : ArchiveStatusUpdate :=
  {| status := "completed"; progress := PyInt 100; phase := PyNone;
     final_size := PyInt size; access_view := PyStr view; error := PyNone |}.

Definition failed (message : string) : ArchiveStatusUpdate :=
  {| status := "failed"; progress := PyNone; phase := PyNone;
     final_size := PyNone; access_view := PyNone; error := PyStr message |}.

Definition pending : ArchiveStatusUpdate :=
  {| status := "pending"; progress := PyInt 0; phase := PyNone;
     final_size := PyNone; access_view := PyNone; error := PyNone |}.

Definition handle : ArchiveResult :=
  {| archive_id := "arc_1234567890abcdef";
     result_status := PyStr "pending";
     total_cost := PyFloat "0.25" |}.

Definition record : Archive :=
  {| archive_url_field := PyStr "https://example.com";
     archive_title := PyStr "Archive de https://example.com";
     archive_status := PyStr "completed";
     archive_size := PyInt 4096;
     created_at := PyStr "2024-01-01T00:00:00Z";
     replicas := [PyStr "r1"; PyStr "r2"; PyStr "r3"];
     integrity_score := PyFloat "0.99";
     archive_view := PyStr "https://view.example/arc" |}.

(** A client that answers every call with a fixed reply. *)
Definition scripted (submit : result ArchiveResult)
    (stream : result update_stream) (lookup : result Archive)
    (closing : option exn) : SDK :=
  fun _ _ _ =>
    {| archives_create := fun _ _ _ => submit;
       stream_archive_updates := fun _ => stream;
       archives_get := fun _ => lookup;
       close := closing |}.

(** Submission succeeds and the stream delivers [items], then is exhausted. *)
Definition streaming (items : list ArchiveStatusUpdate) : SDK :=
  scripted (Ok handle) (Ok {| updates := items; ending := None |})
           (Ok record) None.

(** The lookup raises [e]. *)
Definition lookup_raising (e : exn) : SDK :=
  scripted (Ok handle) (Ok {| updates := []; ending := None |}) (Err e) None.

Definition with_key : gmap string string :=
  {[ "ARCHIVECHAIN_API_KEY" := "secret" ]}.

Definition now : pyvalue := PyFloat "12345.678".

End Double.

(** [main] takes the info path: [sys.argv[1] == "info" and len(sys.argv) >= 3]. *)
Definition is_info_command (argv : list string) : bool :=
  match argv !! 1%nat with
  | Some command => (command =? "info")%string && (3 <=? length argv)%nat
  | None => false
  end.

(** The client object [archive_url] constructs. *)
Definition archive_client (sdk : SDK) (environ : gmap string string)
    : ArchiveChainClient :=
  sdk (getenv environ "ARCHIVECHAIN_API_KEY")
      (getenv_default environ "ARCHIVECHAIN_API_URL" "https://api.archivechain.org/v1")
      (Some (getenv_default environ "ARCHIVECHAIN_NETWORK" "mainnet")).

(** The client object [get_archive_info] constructs. *)
Definition info_client (sdk : SDK) (environ : gmap string string)
    : ArchiveChainClient :=
  sdk (getenv environ "ARCHIVECHAIN_API_KEY")
      (getenv_default environ "ARCHIVECHAIN_API_URL" "https://api.archivechain.org/v1")
      None.

(** A terminal update: status "completed" or "failed". *)
Definition is_terminal (u : ArchiveStatusUpdate) : bool :=
  (status u =? "completed")%string || (status u =? "failed")%string.

(** What the specification (section 4.1) lets the monitoring loop do with
    one update, written from its words: the update is requested from the
    stream; a "processing" update reports progress and phase, a "completed"
    one reports final size and view URL, a "failed" one reports the error. *)
Definition handled (u : ArchiveStatusUpdate) : list event :=
  StreamNext ::
  (if (status u =? "processing")%string then
     [Print ("   Progrès: " +:+ format (progress u) +:+ "% - " +:+ format (phase u))]
   else if (status u =? "completed")%string then
     [Print "🎉 Archive terminée!";
      Print ("   Taille finale: " +:+ format (final_size u) +:+ " bytes");
      Print ("   URL de visualisation: " +:+ format (access_view u))]
   else if (status u =? "failed")%string then
     [Print ("❌ Échec de l'archivage: " +:+ format (error u))]
   else []).

(** The progress lines among the lines a run prints. *)
Definition progress_reports {A} (run : Py A) : list string :=
  filter (fun l => String.prefix "   Progrès: " l = true) (printed run).

(** A run that never awaits [client.close()]. *)
Definition no_close {A} (run : Py A) : Prop := close_count run = 0%nat.

(** ** Pieces of a run of [archive_url] *)

(** The events of [archive_url] up to and including the call of
    [archives.create] (lines 29-60). *)
Definition announced (environ : gmap string string) (loop_time : pyvalue)
    (url : string) : list event :=
  [NewClient (getenv environ "ARCHIVECHAIN_API_KEY")
     (getenv_default environ "ARCHIVECHAIN_API_URL" "https://api.archivechain.org/v1")
     (Some (getenv_default environ "ARCHIVECHAIN_NETWORK" "mainnet"));
   Print ("🔗 Archivage de: " +:+ url);
   Print "📦 Création de l'archive en cours...";
   ArchivesCreate url (default_metadata loop_time url) default_options].

(** The events between the return of [archives.create] and the first item
    requested from the stream (lines 62-69). *)
Definition acknowledged (archive_result : ArchiveResult) : list event :=
  [Print "✅ Archive créée avec succès!";
   Print ("   ID: " +:+ archive_id archive_result);
   Print ("   Statut: " +:+ format (result_status archive_result));
   Print ("   Coût estimé: " +:+ format (total_cost archive_result) +:+ " ARC");
   Print (nl +:+ "📊 Surveillance du progrès...");
   StreamArchiveUpdates (archive_id archive_result)].

(** How a run ends once the [finally] block has awaited [close()]: an
    exception raised by [close()] replaces the pending outcome. *)
Definition after_close {A} (client : ArchiveChainClient) (pending : outcome A)
    : outcome A :=
  match close client with
  | None => pending
  | Some e => Raised e
  end.

(** A "processing" update. *)
Definition is_processing (u : ArchiveStatusUpdate) : bool :=
  (status u =? "processing")%string.

(** A terminal update occurs among [items]. *)
Definition has_terminal (items : list ArchiveStatusUpdate) : bool :=
  existsb is_terminal items.

(** Events the monitoring loop itself can produce. *)
Definition is_loop_event (e : event) : bool :=
  match e with
  | StreamNext | Print _ => true
  | _ => false
  end.

(** Calls of [archives.create] and [archives.get]. *)
Definition is_create_or_get (e : event) : bool :=
  match e with
  | ArchivesCreate _ _ _ | ArchivesGet _ => true
  | _ => false
  end.


(** Opening and leaving the update stream. *)
Definition is_stream_boundary (e : event) : bool :=
  match e with
  | StreamArchiveUpdates _ | StreamExit => true
  | _ => false
  end.

(** * Properties *)

(** ** Configuration and validation guards of [main] *)

(** C4: when the API key is absent from the environment (unset, or set to
    the empty string), [main] exits with status 1 and makes no call on the
    SDK at all, whatever the command line: the archive path and the info
    path alike. *)
Theorem missing_api_key_exits_before_any_call
    (sdk : SDK) (environ : gmap string string) (loop_time : pyvalue)
    (argv : list string) :
  falsy (getenv environ "ARCHIVECHAIN_API_KEY") = true ->
  exit_code (main sdk environ loop_time argv) = 1%Z
  /\ client_calls (main sdk environ loop_time argv) = [].
Proof.
  intros Hkey. unfold main.
  destruct (length argv <? 2)%nat; cbn; [split; reflexivity|].
  rewrite Hkey. cbn. split; reflexivity.
Qed.

Lemma missing_api_key_exits_before_any_call_witness :
  (exit_code (main (Double.streaming []) ∅ Double.now
                ["simple_archive.py"; "https://example.com"]) = 1%Z
   /\ client_calls (main (Double.streaming []) ∅ Double.now
                ["simple_archive.py"; "https://example.com"]) = [])
  /\ (exit_code (main (Double.streaming []) ∅ Double.now
                ["simple_archive.py"; "info"; "arc_1234567890abcdef"]) = 1%Z
   /\ client_calls (main (Double.streaming []) ∅ Double.now
                ["simple_archive.py"; "info"; "arc_1234567890abcdef"]) = []).
Proof.
  split; apply missing_api_key_exits_before_any_call; reflexivity.
Defined.

(** C3: on the archive path of [main], a URL that starts with neither
    "http://" nor "https://" makes the process exit with status 1 without a
    single call on the SDK (no constructor, no create, no stream, no get);
    with the API key configured the only effect is the invalid-URL message. *)
Theorem invalid_url_rejected_without_client_calls
    (sdk : SDK) (environ : gmap string string) (loop_time : pyvalue)
    (prog url : string) (rest : list string) :
  has_http_scheme url = false ->
  is_info_command (prog :: url :: rest) = false ->
  client_calls (main sdk environ loop_time (prog :: url :: rest)) = []
  /\ exit_code (main sdk environ loop_time (prog :: url :: rest)) = 1%Z
  /\ (falsy (getenv environ "ARCHIVECHAIN_API_KEY") = false ->
      main sdk environ loop_time (prog :: url :: rest)
      = ([Print "❌ URL invalide. Doit commencer par http:// ou https://"],
         SystemExit 1%Z)).
Proof.
  intros Hurl Hinfo. unfold is_info_command in Hinfo. cbn in Hinfo.
  unfold main. cbn.
  destruct (falsy (getenv environ "ARCHIVECHAIN_API_KEY")) eqn:Hkey; cbn.
  - repeat split; try reflexivity. discriminate.
  - rewrite Hinfo. cbn. rewrite Hurl. cbn. repeat split; reflexivity.
Qed.

Lemma invalid_url_rejected_without_client_calls_witness :
  client_calls (main (Double.streaming []) Double.with_key Double.now
                  ["simple_archive.py"; "ftp://example.com"]) = []
  /\ exit_code (main (Double.streaming []) Double.with_key Double.now
                  ["simple_archive.py"; "ftp://example.com"]) = 1%Z
  /\ (falsy (getenv Double.with_key "ARCHIVECHAIN_API_KEY") = false ->
      main (Double.streaming []) Double.with_key Double.now
        ["simple_archive.py"; "ftp://example.com"]
      = ([Print "❌ URL invalide. Doit commencer par http:// ou https://"],
         SystemExit 1%Z)).
Proof.
  apply invalid_url_rejected_without_client_calls; reflexivity.
Defined.

(** ** The monitoring loop *)

(** C10: an update whose status is none of "processing", "completed" and
    "failed" is requested from the stream and nothing else happens for it:
    no line is printed, and the loop goes on with the updates that follow,
    exactly as if it had started there. *)
Theorem unknown_status_is_skipped
    (u : ArchiveStatusUpdate) (rest : list ArchiveStatusUpdate)
    (stream_end : option exn) :
  status u <> "processing" ->
  status u <> "completed" ->
  status u <> "failed" ->
  async_for_update (u :: rest) stream_end
  = (tell StreamNext ;; async_for_update rest stream_end)
  /\ printed (async_for_update (u :: rest) stream_end)
     = printed (async_for_update rest stream_end).
Proof.
  intros Hp Hc Hf.
  apply String.eqb_neq in Hp, Hc, Hf.
  assert (Hstep : async_for_update (u :: rest) stream_end
                  = (tell StreamNext ;; async_for_update rest stream_end)).
  { cbn [async_for_update]. rewrite Hp, Hc, Hf. reflexivity. }
  split; [exact Hstep|].
  rewrite Hstep. unfold printed, trace.
  destruct (async_for_update rest stream_end) as [t o]. reflexivity.
Qed.

Lemma unknown_status_is_skipped_witness :
  async_for_update [Double.pending; Double.completed 4096 "U"] None
  = (tell StreamNext ;; async_for_update [Double.completed 4096 "U"] None)
  /\ printed (async_for_update [Double.pending; Double.completed 4096 "U"] None)
     = printed (async_for_update [Double.completed 4096 "U"] None).
Proof.
  apply unknown_status_is_skipped; discriminate.
Defined.

Lemma async_for_update_terminal (t : ArchiveStatusUpdate)
    (post : list ArchiveStatusUpdate) (stream_end : option exn) :
  is_terminal t = true ->
  async_for_update (t :: post) stream_end = (handled t, Returned tt).
Proof.
  unfold is_terminal, handled. intros Ht. cbn [async_for_update].
  destruct (status t =? "processing")%string eqn:Hp.
  - apply String.eqb_eq in Hp. rewrite Hp in Ht. discriminate.
  - destruct (status t =? "completed")%string; [reflexivity|].
    destruct (status t =? "failed")%string; [reflexivity | discriminate].
Qed.

Lemma async_for_update_continue (u : ArchiveStatusUpdate)
    (rest : list ArchiveStatusUpdate) (stream_end : option exn) :
  is_terminal u = false ->
  async_for_update (u :: rest) stream_end
  = (handled u ++ trace (async_for_update rest stream_end),
     snd (async_for_update rest stream_end)).
Proof.
  unfold is_terminal, handled, trace. intros Hu.
  apply orb_false_iff in Hu as [Hc Hf]. cbn [async_for_update].
  rewrite Hc, Hf.
  destruct (async_for_update rest stream_end) as [t o].
  destruct (status u =? "processing")%string; destruct o; reflexivity.
Qed.

(** C5: the loop handles the updates in the order the stream delivers them
    and returns at the first one whose status is "completed" or "failed":
    its events are those of the updates before that one, in order, then
    those of that one, and nothing else; neither the updates that would
    follow nor the way the stream would end play any part. *)
Theorem loop_stops_at_first_terminal_update
    (before : list ArchiveStatusUpdate) (t : ArchiveStatusUpdate)
    (after : list ArchiveStatusUpdate) (stream_end : option exn) :
  Forall (fun u => is_terminal u = false) before ->
  is_terminal t = true ->
  async_for_update (before ++ t :: after) stream_end
  = (flat_map handled before ++ handled t, Returned tt).
Proof.
  intros Hbefore Ht.
  induction Hbefore as [|u before Hu _ IH].
  - apply async_for_update_terminal, Ht.
  - change ((u :: before) ++ t :: after) with (u :: (before ++ t :: after)).
    rewrite async_for_update_continue by exact Hu.
    rewrite IH. cbn [trace fst snd flat_map]. rewrite <- app_assoc. reflexivity.
Qed.

Lemma loop_stops_at_first_terminal_update_witness :
  async_for_update
    ([Double.processing 5 "crawl"; Double.pending]
     ++ Double.failed "timeout" :: [Double.processing 90 "late"; Double.completed 1 "U"])
    (Some (Exn TransportError "connection reset"))
  = (flat_map handled [Double.processing 5 "crawl"; Double.pending]
     ++ handled (Double.failed "timeout"), Returned tt).
Proof.
  apply loop_stops_at_first_terminal_update.
  - repeat constructor.
  - reflexivity.
Defined.

(** ** Releasing the client *)

Lemma close_count_app {A B C} (t t' : list event)
    (o1 : outcome A) (o2 : outcome B) (o : outcome C) :
  close_count (t ++ t', o) = (close_count (t, o1) + close_count (t', o2))%nat.
Proof.
  unfold close_count. cbn [trace fst]. rewrite filter_app, length_app. reflexivity.
Qed.

Lemma no_close_ret {A} (a : A) : no_close (ret a).
Proof. reflexivity. Qed.

Lemma no_close_raise {A} (e : exn) : no_close (@raise A e).
Proof. reflexivity. Qed.

Lemma no_close_sys_exit {A} (c : Z) : no_close (@sys_exit A c).
Proof. reflexivity. Qed.

Lemma no_close_print (line : string) : no_close (print line).
Proof. reflexivity. Qed.

Lemma no_close_tell (e : event) : is_close e = false -> no_close (tell e).
Proof. destruct e; intros H; try reflexivity; discriminate. Qed.

Lemma no_close_lift {A} (r : result A) : no_close (lift r).
Proof. destruct r; reflexivity. Qed.

Lemma no_close_bind {A B} (m : Py A) (k : A -> Py B) :
  no_close m -> (forall a, no_close (k a)) -> no_close (bind m k).
Proof.
  unfold no_close. intros Hm Hk. destruct m as [t [a|e|c]]; cbn; try exact Hm.
  specialize (Hk a). destruct (k a) as [t' o].
  rewrite (close_count_app t t' (Returned a) o o), Hm, Hk. reflexivity.
Qed.

Lemma no_close_try_except {A} (body : Py A) (handler : exn -> Py A) :
  no_close body -> (forall e, no_close (handler e)) -> no_close (try_except body handler).
Proof.
  unfold no_close. intros Hb Hh. destruct body as [t [a|e|c]]; cbn; try exact Hb.
  specialize (Hh e). destruct (handler e) as [t' o].
  rewrite (close_count_app t t' (@Raised A e) o o), Hb, Hh. reflexivity.
Qed.

Lemma close_count_try_finally {A} (body : Py A) (final : Py unit) :
  close_count (try_finally body final)
  = (close_count body + close_count final)%nat.
Proof.
  destruct body as [t o], final as [t' [[]|e|c]]; cbn [try_finally].
  - apply close_count_app.
  - apply close_count_app.
  - apply close_count_app.
Qed.

Lemma no_close_async_for_update (items : list ArchiveStatusUpdate)
    (stream_end : option exn) :
  no_close (async_for_update items stream_end).
Proof.
  induction items as [|u rest IH]; cbn [async_for_update].
  - destruct stream_end; reflexivity.
  - apply no_close_bind; [reflexivity|]. intros _.
    repeat match goal with
           | |- no_close (if ?c then _ else _) => destruct c
           | |- no_close (bind _ _) => apply no_close_bind; [reflexivity|intros _]
           end; try reflexivity; exact IH.
Qed.

Lemma close_count_client_close (client : ArchiveChainClient) :
  close_count (client_close client) = 1%nat.
Proof. unfold client_close. destruct (close client); reflexivity. Qed.

Lemma close_count_after_tell {A} (e : event) (k : Py A) :
  is_close e = false -> close_count (tell e ;; k) = close_count k.
Proof.
  intros He. destruct k as [t o]. unfold close_count. cbn.
  destruct e; try discriminate; reflexivity.
Qed.

Create HintDb no_close discriminated.
#[local] Hint Resolve no_close_ret no_close_raise no_close_sys_exit no_close_print
  no_close_lift no_close_async_for_update : no_close.

Ltac no_close_step :=
  first [ apply no_close_bind; [|intro]
        | apply no_close_try_except; [|intro]
        | apply no_close_tell; reflexivity
        | solve [auto with no_close] ].

(** C6: every execution of [archive_url] and every execution of
    [get_archive_info] awaits [client.close()] exactly once, whatever the
    SDK answers or raises (on create, on the stream, on get, on close
    itself) and also when nothing fails. *)
Theorem client_closed_exactly_once
    (sdk : SDK) (environ : gmap string string) (loop_time : pyvalue)
    (url id : string) :
  close_count (archive_url sdk environ loop_time url) = 1%nat
  /\ close_count (get_archive_info sdk environ id) = 1%nat.
Proof.
  split.
  - unfold archive_url.
    rewrite close_count_after_tell by reflexivity.
    rewrite close_count_try_finally, close_count_client_close.
    match goal with
    | |- (close_count ?body + 1)%nat = _ => assert (Hbody : no_close body)
    end.
    { repeat no_close_step. unfold async_with_archive_updates.
      repeat no_close_step. unfold no_close.
      rewrite close_count_try_finally.
      rewrite no_close_async_for_update. reflexivity. }
    rewrite Hbody. reflexivity.
  - unfold get_archive_info.
    rewrite close_count_after_tell by reflexivity.
    rewrite close_count_try_finally, close_count_client_close.
    match goal with
    | |- (close_count ?body + 1)%nat = _ => assert (Hbody : no_close body)
    end.
    { repeat no_close_step. }
    rewrite Hbody. reflexivity.
Qed.

(** ** Traces of composed runs *)

Lemma trace_tell_bind {A} (e : event) (k : Py A) :
  trace (tell e ;; k) = e :: trace k.
Proof. destruct k as [t o]. reflexivity. Qed.

Lemma trace_print_bind {A} (line : string) (k : Py A) :
  trace (print line ;; k) = Print line :: trace k.
Proof. apply trace_tell_bind. Qed.

Lemma trace_lift_ok_bind {A B} (a : A) (k : A -> Py B) :
  trace (x <- lift (Ok a) ;; k x) = trace (k a).
Proof. cbn. destruct (k a) as [t o]. reflexivity. Qed.

Lemma trace_try_finally {A} (body : Py A) (final : Py unit) :
  trace (try_finally body final) = trace body ++ trace final.
Proof. destruct body as [t o], final as [t' [[]|e|c]]; reflexivity. Qed.

Lemma trace_try_except {A} (body : Py A) (handler : exn -> Py A) :
  exists rest, trace (try_except body handler) = trace body ++ rest.
Proof.
  destruct body as [t [a|e|c]]; cbn.
  - exists []. symmetry. apply app_nil_r.
  - destruct (handler e) as [t' o]. exists t'. reflexivity.
  - exists []. symmetry. apply app_nil_r.
Qed.

(** ** Submission *)

(** C9: [archive_url] always passes to [archives.create] the options
    include_assets=True, max_depth=2, preserve_javascript=False, timeout=30,
    and when the call returns a result, the ID and the estimated cost it
    prints are the [archive_id] and [cost_estimation.total_cost] of that
    very result. *)
Theorem submission_uses_default_options_and_reports_result
    (sdk : SDK) (environ : gmap string string) (loop_time : pyvalue)
    (url : string) (archive_result : ArchiveResult) :
  archives_create (archive_client sdk environ) url
    (default_metadata loop_time url)
    {| include_assets := true; max_depth := 2;
       preserve_javascript := false; timeout := 30 |}
  = Ok archive_result ->
  exists api_key api_url network rest,
    trace (archive_url sdk environ loop_time url)
    = [NewClient api_key api_url network;
       Print ("🔗 Archivage de: " +:+ url);
       Print "📦 Création de l'archive en cours...";
       ArchivesCreate url (default_metadata loop_time url)
         {| include_assets := true; max_depth := 2;
            preserve_javascript := false; timeout := 30 |};
       Print "✅ Archive créée avec succès!";
       Print ("   ID: " +:+ archive_id archive_result);
       Print ("   Statut: " +:+ format (result_status archive_result));
       Print ("   Coût estimé: " +:+ format (total_cost archive_result) +:+ " ARC")]
      ++ rest.
Proof.
  intros Hcreate. unfold archive_client in Hcreate.
  do 3 eexists. unfold archive_url, default_options.
  rewrite trace_tell_bind, trace_try_finally.
  match goal with
  | |- context [try_except ?body ?handler] =>
      destruct (trace_try_except body handler) as [caught ->]
  end.
  rewrite Hcreate.
  rewrite !trace_print_bind, trace_tell_bind, trace_lift_ok_bind, !trace_print_bind.
  eexists. cbn [app]. reflexivity.
Qed.

Lemma submission_uses_default_options_and_reports_result_witness :
  exists api_key api_url network rest,
    trace (archive_url (Double.streaming []) Double.with_key Double.now
             "https://example.com")
    = [NewClient api_key api_url network;
       Print ("🔗 Archivage de: " +:+ "https://example.com");
       Print "📦 Création de l'archive en cours...";
       ArchivesCreate "https://example.com"
         (default_metadata Double.now "https://example.com")
         {| include_assets := true; max_depth := 2;
            preserve_javascript := false; timeout := 30 |};
       Print "✅ Archive créée avec succès!";
       Print ("   ID: " +:+ archive_id Double.handle);
       Print ("   Statut: " +:+ format (result_status Double.handle));
       Print ("   Coût estimé: " +:+ format (total_cost Double.handle) +:+ " ARC")]
      ++ rest.
Proof.
  apply (submission_uses_default_options_and_reports_result
           (Double.streaming []) Double.with_key Double.now
           "https://example.com" Double.handle).
  reflexivity.
Defined.

(** ** Outcome of a tracked archive *)

(** C8: with the update sequence processing(10%), processing(55%),
    completed(final_size=4096, view=U), the run prints one progress line for
    each of the two processing updates (two progress lines, 10% then 55%),
    then the completion notice with the final size 4096 and the view URL U,
    and, [close()] returning normally, [main] returns: exit status 0. *)
Theorem two_progress_reports_then_completion
    (sdk : SDK) (environ : gmap string string) (loop_time : pyvalue)
    (prog url : string) (archive_result : ArchiveResult) (stream : update_stream)
    (phase1 phase2 U : string) :
  falsy (getenv environ "ARCHIVECHAIN_API_KEY") = false ->
  has_http_scheme url = true ->
  archives_create (archive_client sdk environ) url
    (default_metadata loop_time url) default_options = Ok archive_result ->
  stream_archive_updates (archive_client sdk environ) (archive_id archive_result)
  = Ok stream ->
  updates stream = [Double.processing 10 phase1; Double.processing 55 phase2;
                    Double.completed 4096 U] ->
  close (archive_client sdk environ) = None ->
  printed (main sdk environ loop_time [prog; url])
  = ["🔗 Archivage de: " +:+ url;
     "📦 Création de l'archive en cours...";
     "✅ Archive créée avec succès!";
     "   ID: " +:+ archive_id archive_result;
     "   Statut: " +:+ format (result_status archive_result);
     "   Coût estimé: " +:+ format (total_cost archive_result) +:+ " ARC";
     nl +:+ "📊 Surveillance du progrès...";
     "   Progrès: 10% - " +:+ phase1;
     "   Progrès: 55% - " +:+ phase2;
     "🎉 Archive terminée!";
     "   Taille finale: 4096 bytes";
     "   URL de visualisation: " +:+ U]
  /\ length (progress_reports (main sdk environ loop_time [prog; url])) = 2%nat
  /\ exit_code (main sdk environ loop_time [prog; url]) = 0%Z.
Proof.
  intros Hkey Hurl Hcreate Hstream Hupdates Hclose.
  unfold archive_client in *.
  assert (Hrun : main sdk environ loop_time [prog; url]
    = ([NewClient (getenv environ "ARCHIVECHAIN_API_KEY")
          (getenv_default environ "ARCHIVECHAIN_API_URL"
             "https://api.archivechain.org/v1")
          (Some (getenv_default environ "ARCHIVECHAIN_NETWORK" "mainnet"));
        Print ("🔗 Archivage de: " +:+ url);
        Print "📦 Création de l'archive en cours...";
        ArchivesCreate url (default_metadata loop_time url) default_options;
        Print "✅ Archive créée avec succès!";
        Print ("   ID: " +:+ archive_id archive_result);
        Print ("   Statut: " +:+ format (result_status archive_result));
        Print ("   Coût estimé: " +:+ format (total_cost archive_result) +:+ " ARC");
        Print (nl +:+ "📊 Surveillance du progrès...");
        StreamArchiveUpdates (archive_id archive_result);
        StreamNext; Print ("   Progrès: 10% - " +:+ phase1);
        StreamNext; Print ("   Progrès: 55% - " +:+ phase2);
        StreamNext; Print "🎉 Archive terminée!";
        Print "   Taille finale: 4096 bytes";
        Print ("   URL de visualisation: " +:+ U);
        StreamExit; Close], Returned tt)).
  { unfold main. cbn [length Nat.ltb Nat.leb bind ret]. rewrite Hkey.
    cbn [item lookup list_lookup bind ret String.eqb Ascii.eqb Bool.eqb andb
         length Nat.leb app].
    rewrite andb_false_r, Hurl. cbn [negb bind ret app].
    unfold archive_url, async_with_archive_updates, client_close. cbv zeta.
    rewrite Hcreate, Hclose.
    cbn -[getenv getenv_default default_metadata String.append format].
    rewrite Hstream.
    cbn -[getenv getenv_default default_metadata String.append format].
    rewrite Hupdates. reflexivity. }
  rewrite Hrun. repeat split.
Qed.

Lemma two_progress_reports_then_completion_witness :
  printed (main (Double.streaming
                   [Double.processing 10 "crawling"; Double.processing 55 "storing";
                    Double.completed 4096 "https://view.example/arc"])
             Double.with_key Double.now
             ["simple_archive.py"; "https://example.com"])
  = ["🔗 Archivage de: " +:+ "https://example.com";
     "📦 Création de l'archive en cours...";
     "✅ Archive créée avec succès!";
     "   ID: " +:+ archive_id Double.handle;
     "   Statut: " +:+ format (result_status Double.handle);
     "   Coût estimé: " +:+ format (total_cost Double.handle) +:+ " ARC";
     nl +:+ "📊 Surveillance du progrès...";
     "   Progrès: 10% - " +:+ "crawling";
     "   Progrès: 55% - " +:+ "storing";
     "🎉 Archive terminée!";
     "   Taille finale: 4096 bytes";
     "   URL de visualisation: " +:+ "https://view.example/arc"]
  /\ length (progress_reports
               (main (Double.streaming
                        [Double.processing 10 "crawling";
                         Double.processing 55 "storing";
                         Double.completed 4096 "https://view.example/arc"])
                  Double.with_key Double.now
                  ["simple_archive.py"; "https://example.com"])) = 2%nat
  /\ exit_code (main (Double.streaming
                        [Double.processing 10 "crawling";
                         Double.processing 55 "storing";
                         Double.completed 4096 "https://view.example/arc"])
                  Double.with_key Double.now
                  ["simple_archive.py"; "https://example.com"]) = 0%Z.
Proof.
  apply (two_progress_reports_then_completion
           (Double.streaming
              [Double.processing 10 "crawling"; Double.processing 55 "storing";
               Double.completed 4096 "https://view.example/arc"])
           Double.with_key Double.now "simple_archive.py" "https://example.com"
           Double.handle
           {| updates := [Double.processing 10 "crawling";
                          Double.processing 55 "storing";
                          Double.completed 4096 "https://view.example/arc"];
              ending := None |});
    reflexivity.
Defined.

(** C8, as stated, fails: for that update sequence the run does not print
    three progress lines. *)
Lemma three_progress_reports_refuted :
  length (progress_reports
            (main (Double.streaming
                     [Double.processing 10 "crawling"; Double.processing 55 "storing";
                      Double.completed 4096 "https://view.example/arc"])
               Double.with_key Double.now
               ["simple_archive.py"; "https://example.com"])) <> 3%nat.
Proof. vm_compute. discriminate. Qed.

(** C1: a run of [archive <url>] whose monitoring loop ends on a "failed"
    update.  The script prints the failure and then returns normally, so the
    process exits with status 0. *)
Theorem failed_update_exits_with_status_zero :
  last (printed (main (Double.streaming
                         [Double.processing 5 "crawling"; Double.failed "timeout"])
                   Double.with_key Double.now
                   ["simple_archive.py"; "https://example.com"]))
  = Some "❌ Échec de l'archivage: timeout"
  /\ exit_code (main (Double.streaming
                        [Double.processing 5 "crawling"; Double.failed "timeout"])
                  Double.with_key Double.now
                  ["simple_archive.py"; "https://example.com"]) = 0%Z.
Proof. split; reflexivity. Qed.

(** ** Lookup *)

(** C2: runs of [archive info <archive_id>] in which [archives.get] raises
    NotFoundError, respectively TransportError.  The script prints the error
    and returns normally, so the process exits with status 0 in both. *)
Theorem failed_lookup_exits_with_status_zero :
  main (Double.lookup_raising (Exn NotFoundError "archive not found"))
    Double.with_key Double.now ["simple_archive.py"; "info"; "unknown-id"]
  = ([NewClient (Some "secret") "https://api.archivechain.org/v1" None;
      Print "🔍 Récupération des informations pour l'archive: unknown-id";
      ArchivesGet "unknown-id";
      Print "❌ Erreur lors de la récupération: archive not found";
      Close], Returned tt)
  /\ exit_code (main (Double.lookup_raising (Exn NotFoundError "archive not found"))
                  Double.with_key Double.now
                  ["simple_archive.py"; "info"; "unknown-id"]) = 0%Z
  /\ exit_code (main (Double.lookup_raising (Exn TransportError "connection refused"))
                  Double.with_key Double.now
                  ["simple_archive.py"; "info"; "unknown-id"]) = 0%Z.
Proof. repeat split. Qed.

(** C7, as stated, fails: a NotFoundError and a TransportError raised by the
    lookup are not always told apart; with the same message text the two
    runs are identical, and neither hands an error to the caller. *)
Lemma lookup_error_class_not_distinguished :
  ~ (forall e_missing e_transport : exn,
       exn_type e_missing = NotFoundError ->
       exn_type e_transport = TransportError ->
       get_archive_info (Double.lookup_raising e_missing)
         Double.with_key "unknown-id"
       <> get_archive_info (Double.lookup_raising e_transport)
            Double.with_key "unknown-id").
Proof.
  intros Hdistinct.
  apply (Hdistinct (Exn NotFoundError "request failed")
                   (Exn TransportError "request failed")); reflexivity.
Qed.

(** C7: when the lookup raises an exception (NotFoundError included),
    [get_archive_info] catches it and reports it by printing the fixed text
    "Erreur lors de la récupération" followed by the exception's message;
    the exception's class does not appear in what the run does. *)
Theorem lookup_error_reported_by_message
    (sdk : SDK) (environ : gmap string string) (id : string) (e : exn) :
  archives_get (info_client sdk environ) id = Err e ->
  trace (get_archive_info sdk environ id)
  = [NewClient (getenv environ "ARCHIVECHAIN_API_KEY")
       (getenv_default environ "ARCHIVECHAIN_API_URL"
          "https://api.archivechain.org/v1") None;
     Print ("🔍 Récupération des informations pour l'archive: " +:+ id);
     ArchivesGet id;
     Print ("❌ Erreur lors de la récupération: " +:+ exn_str e);
     Close].
Proof.
  intros Hget. unfold info_client in Hget.
  unfold get_archive_info, client_close.
  rewrite trace_tell_bind, trace_try_finally, Hget.
  destruct (close _); reflexivity.
Qed.

Lemma lookup_error_reported_by_message_witness :
  trace (get_archive_info
           (Double.lookup_raising (Exn NotFoundError "archive not found"))
           Double.with_key "unknown-id")
  = [NewClient (getenv Double.with_key "ARCHIVECHAIN_API_KEY")
       (getenv_default Double.with_key "ARCHIVECHAIN_API_URL"
          "https://api.archivechain.org/v1") None;
     Print ("🔍 Récupération des informations pour l'archive: " +:+ "unknown-id");
     ArchivesGet "unknown-id";
     Print ("❌ Erreur lors de la récupération: "
            +:+ exn_str (Exn NotFoundError "archive not found"));
     Close].
Proof.
  apply lookup_error_reported_by_message. reflexivity.
Defined.

(** * Further properties of the script *)

Ltac script_step :=
  cbn -[getenv getenv_default default_metadata default_options
        String.append format async_for_update].

Lemma archive_url_create_raises
    (sdk : SDK) (environ : gmap string string) (loop_time : pyvalue)
    (url : string) (e : exn) :
  archives_create (archive_client sdk environ) url
    (default_metadata loop_time url) default_options = Err e ->
  archive_url sdk environ loop_time url
  = (announced environ loop_time url
     ++ [Print ("❌ Erreur lors de l'archivage: " +:+ exn_str e); Close],
     after_close (archive_client sdk environ) (SystemExit 1%Z)).
Proof.
  unfold archive_client, after_close, announced. intros Hcreate.
  unfold archive_url, client_close. cbv zeta. rewrite Hcreate.
  destruct (close _); reflexivity.
Qed.

Lemma archive_url_subscribe_raises
    (sdk : SDK) (environ : gmap string string) (loop_time : pyvalue)
    (url : string) (archive_result : ArchiveResult) (e : exn) :
  archives_create (archive_client sdk environ) url
    (default_metadata loop_time url) default_options = Ok archive_result ->
  stream_archive_updates (archive_client sdk environ) (archive_id archive_result)
  = Err e ->
  archive_url sdk environ loop_time url
  = (announced environ loop_time url ++ acknowledged archive_result
     ++ [Print ("❌ Erreur lors de l'archivage: " +:+ exn_str e); Close],
     after_close (archive_client sdk environ) (SystemExit 1%Z)).
Proof.
  unfold archive_client, after_close, announced, acknowledged.
  intros Hcreate Hstream.
  unfold archive_url, async_with_archive_updates, client_close. cbv zeta.
  rewrite Hcreate. script_step. rewrite Hstream.
  destruct (close _); reflexivity.
Qed.

Lemma archive_url_monitoring
    (sdk : SDK) (environ : gmap string string) (loop_time : pyvalue)
    (url : string) (archive_result : ArchiveResult) (stream : update_stream) :
  archives_create (archive_client sdk environ) url
    (default_metadata loop_time url) default_options = Ok archive_result ->
  stream_archive_updates (archive_client sdk environ) (archive_id archive_result)
  = Ok stream ->
  archive_url sdk environ loop_time url
  = (announced environ loop_time url ++ acknowledged archive_result
     ++ trace (async_for_update (updates stream) (ending stream))
     ++ StreamExit ::
        match snd (async_for_update (updates stream) (ending stream)) with
        | Raised e => [Print ("❌ Erreur lors de l'archivage: " +:+ exn_str e); Close]
        | _ => [Close]
        end,
     after_close (archive_client sdk environ)
       match snd (async_for_update (updates stream) (ending stream)) with
       | Returned _ => Returned tt
       | Raised _ => SystemExit 1%Z
       | SystemExit c => SystemExit c
       end).
Proof.
  unfold archive_client, after_close, announced, acknowledged.
  intros Hcreate Hstream.
  unfold archive_url, async_with_archive_updates, client_close. cbv zeta.
  rewrite Hcreate. script_step. rewrite Hstream. script_step.
  destruct (async_for_update (updates stream) (ending stream)) as [t [[]|e|c]];
    destruct (close _); script_step; rewrite <- ?app_assoc; reflexivity.
Qed.

(** ** The monitoring loop, beyond the first terminal update *)

(** X1: when no update of the stream is terminal, the loop handles every update
    in order, asks the stream for one more item and ends the way the stream
    ends: it returns when the stream is exhausted and raises what the stream
    raises. *)
Theorem loop_without_terminal_update
    (items : list ArchiveStatusUpdate) (stream_end : option exn) :
  has_terminal items = false ->
  async_for_update items stream_end
  = (flat_map handled items ++ [StreamNext],
     match stream_end with
     | None => Returned tt
     | Some e => Raised e
     end).
Proof.
  unfold has_terminal. induction items as [|u rest IH]; cbn [existsb]; intros H.
  - destruct stream_end; reflexivity.
  - apply orb_false_iff in H as [Hu Hrest].
    rewrite async_for_update_continue by exact Hu.
    rewrite (IH Hrest). cbn [trace fst snd flat_map].
    rewrite <- app_assoc. reflexivity.
Qed.

Lemma loop_without_terminal_update_witness :
  async_for_update [Double.processing 5 "crawling"; Double.pending]
    (Some (Exn TransportError "connection reset"))
  = (flat_map handled [Double.processing 5 "crawling"; Double.pending]
     ++ [StreamNext],
     Raised (Exn TransportError "connection reset")).
Proof.
  apply (loop_without_terminal_update
           [Double.processing 5 "crawling"; Double.pending]
           (Some (Exn TransportError "connection reset"))).
  reflexivity.
Defined.

Lemma async_for_update_outcome
    (items : list ArchiveStatusUpdate) (stream_end : option exn) :
  snd (async_for_update items stream_end)
  = if has_terminal items then Returned tt
    else match stream_end with
         | None => Returned tt
         | Some e => Raised e
         end.
Proof.
  unfold has_terminal. induction items as [|u rest IH]; cbn [existsb].
  - destruct stream_end; reflexivity.
  - destruct (is_terminal u) eqn:Hu; cbn [orb].
    + rewrite async_for_update_terminal by exact Hu. reflexivity.
    + rewrite async_for_update_continue by exact Hu. exact IH.
Qed.

Lemma loop_events (items : list ArchiveStatusUpdate) (stream_end : option exn) :
  Forall (fun e => is_loop_event e = true)
         (trace (async_for_update items stream_end)).
Proof.
  assert (Hhandled : forall u, Forall (fun e => is_loop_event e = true) (handled u)).
  { intros u. unfold handled.
    destruct (status u =? "processing")%string; [repeat constructor|].
    destruct (status u =? "completed")%string; [repeat constructor|].
    destruct (status u =? "failed")%string; repeat constructor. }
  induction items as [|u rest IH].
  - destruct stream_end; repeat constructor.
  - destruct (is_terminal u) eqn:Hu.
    + rewrite async_for_update_terminal by exact Hu. apply Hhandled.
    + rewrite async_for_update_continue by exact Hu. cbn [trace fst].
      apply Forall_app. split; [apply Hhandled | exact IH].
Qed.

(** ** Runs of [archive_url] *)

Lemma filter_none (p : event -> bool) (l : list event) :
  Forall (fun ev => p ev = false) l ->
  filter (fun ev => p ev = true) l = [].
Proof.
  induction 1 as [|ev l Hev _ IH]; [reflexivity|].
  rewrite filter_cons_False; [exact IH|]. rewrite Hev. discriminate.
Qed.

Lemma archive_url_cases
    (sdk : SDK) (environ : gmap string string) (loop_time : pyvalue)
    (url : string) :
  (exists e,
      archives_create (archive_client sdk environ) url
        (default_metadata loop_time url) default_options = Err e)
  \/ (exists archive_result e,
        archives_create (archive_client sdk environ) url
          (default_metadata loop_time url) default_options = Ok archive_result
        /\ stream_archive_updates (archive_client sdk environ)
             (archive_id archive_result) = Err e)
  \/ (exists archive_result stream,
        archives_create (archive_client sdk environ) url
          (default_metadata loop_time url) default_options = Ok archive_result
        /\ stream_archive_updates (archive_client sdk environ)
             (archive_id archive_result) = Ok stream).
Proof.
  destruct (archives_create (archive_client sdk environ) url
              (default_metadata loop_time url) default_options)
    as [archive_result|e] eqn:Hcreate.
  - right.
    destruct (stream_archive_updates (archive_client sdk environ)
                (archive_id archive_result)) as [stream|e] eqn:Hstream.
    + right. exists archive_result, stream. split; [reflexivity | exact Hstream].
    + left. exists archive_result, e. split; [reflexivity | exact Hstream].
  - left. exists e. reflexivity.
Qed.

Lemma exit_code_after_close_exit {A} (t : list event) (client : ArchiveChainClient) :
  exit_code (t, @after_close A client (SystemExit 1%Z)) = 1%Z.
Proof. unfold exit_code, after_close. cbn. destruct (close client); reflexivity. Qed.







(** X5: [archive_url] lets the process end with status 0 exactly when
    [archives.create] returned, the stream was opened, the loop left it
    without an exception (a terminal update was delivered, or the stream ran
    out), and [close()] returned; in every other case the status is not 0. *)
Theorem archive_url_exit_zero_iff
    (sdk : SDK) (environ : gmap string string) (loop_time : pyvalue)
    (url : string) :
  exit_code (archive_url sdk environ loop_time url) = 0%Z
  <-> exists archive_result stream,
        archives_create (archive_client sdk environ) url
          (default_metadata loop_time url) default_options = Ok archive_result
        /\ stream_archive_updates (archive_client sdk environ)
             (archive_id archive_result) = Ok stream
        /\ (has_terminal (updates stream) = true \/ ending stream = None)
        /\ close (archive_client sdk environ) = None.
Proof.
  destruct (archive_url_cases sdk environ loop_time url)
    as [(e & Hc) | [(h & e & Hc & Hs) | (h & s & Hc & Hs)]].
  - rewrite (archive_url_create_raises _ _ _ _ _ Hc), exit_code_after_close_exit.
    split; [discriminate|]. intros (h & s & Hc' & _). congruence.
  - rewrite (archive_url_subscribe_raises _ _ _ _ _ _ Hc Hs),
      exit_code_after_close_exit.
    split; [discriminate|]. intros (h' & s & Hc' & Hs' & _). congruence.
  - rewrite (archive_url_monitoring _ _ _ _ _ _ Hc Hs), async_for_update_outcome.
    unfold exit_code, after_close. cbn [snd].
    split.
    + intros Hexit. exists h, s. split; [exact Hc|]. split; [exact Hs|].
      destruct (close (archive_client sdk environ)); [discriminate|].
      destruct (has_terminal (updates s)); [auto|].
      destruct (ending s); [discriminate | auto].
    + intros (h' & s' & Hc' & Hs' & Hloop & Hclose).
      assert (h' = h) as -> by congruence.
      assert (s' = s) as -> by congruence.
      rewrite Hclose.
      destruct Hloop as [-> | ->]; [reflexivity|].
      destruct (has_terminal (updates s)); reflexivity.
Qed.


(** X7: whatever happens, one run of [archive_url] calls [archives.create]
    exactly once, with the url it was given and the default options (there
    is no retry), and never calls [archives.get]. *)
Theorem archive_url_submits_once
    (sdk : SDK) (environ : gmap string string) (loop_time : pyvalue)
    (url : string) :
  filter (fun ev => is_create_or_get ev = true)
         (trace (archive_url sdk environ loop_time url))
  = [ArchivesCreate url (default_metadata loop_time url)
       {| include_assets := true; max_depth := 2;
          preserve_javascript := false; timeout := 30 |}].
Proof.
  destruct (archive_url_cases sdk environ loop_time url)
    as [(e & Hc) | [(h & e & Hc & Hs) | (h & s & Hc & Hs)]].
  - rewrite (archive_url_create_raises _ _ _ _ _ Hc). reflexivity.
  - rewrite (archive_url_subscribe_raises _ _ _ _ _ _ Hc Hs). reflexivity.
  - rewrite (archive_url_monitoring _ _ _ _ _ _ Hc Hs). cbn [trace fst].
    rewrite !filter_app.
    assert (Hloop : filter (fun ev => is_create_or_get ev = true)
                      (trace (async_for_update (updates s) (ending s))) = []).
    { apply filter_none.
      eapply Forall_impl; [apply loop_events|].
      intros [] H; cbn in *; try discriminate; reflexivity. }
    rewrite Hloop.
    destruct (snd (async_for_update (updates s) (ending s))); reflexivity.
Qed.


(** ** Runs of [get_archive_info] *)

Lemma get_archive_info_found
    (sdk : SDK) (environ : gmap string string) (id : string) (archive : Archive) :
  archives_get (info_client sdk environ) id = Ok archive ->
  get_archive_info sdk environ id
  = ([NewClient (getenv environ "ARCHIVECHAIN_API_KEY")
        (getenv_default environ "ARCHIVECHAIN_API_URL"
           "https://api.archivechain.org/v1") None;
      Print ("🔍 Récupération des informations pour l'archive: " +:+ id);
      ArchivesGet id;
      Print (nl +:+ "📋 Informations de l'archive:");
      Print ("   URL originale: " +:+ format (archive_url_field archive));
      Print ("   Titre: " +:+ format (archive_title archive));
      Print ("   Statut: " +:+ format (archive_status archive));
      Print ("   Taille: " +:+ format (archive_size archive) +:+ " bytes");
      Print ("   Créée le: " +:+ format (created_at archive));
      Print ("   Répliques: "
             +:+ format (PyInt (Z.of_nat (length (replicas archive)))));
      Print ("   Score d'intégrité: " +:+ format (integrity_score archive));
      Print ("   URL de visualisation: " +:+ format (archive_view archive));
      Close],
     after_close (info_client sdk environ) (Returned tt)).
Proof.
  unfold info_client, after_close. intros Hget.
  unfold get_archive_info, client_close. rewrite Hget.
  destruct (close _); reflexivity.
Qed.

Lemma get_archive_info_raises
    (sdk : SDK) (environ : gmap string string) (id : string) (e : exn) :
  archives_get (info_client sdk environ) id = Err e ->
  get_archive_info sdk environ id
  = ([NewClient (getenv environ "ARCHIVECHAIN_API_KEY")
        (getenv_default environ "ARCHIVECHAIN_API_URL"
           "https://api.archivechain.org/v1") None;
      Print ("🔍 Récupération des informations pour l'archive: " +:+ id);
      ArchivesGet id;
      Print ("❌ Erreur lors de la récupération: " +:+ exn_str e);
      Close],
     after_close (info_client sdk environ) (Returned tt)).
Proof.
  unfold info_client, after_close. intros Hget.
  unfold get_archive_info, client_close. rewrite Hget.
  destruct (close _); reflexivity.
Qed.

(** X8: whatever [archives.get] answers or raises, [get_archive_info] makes
    exactly three calls on the SDK, in this order: it builds a client
    (without a network argument), calls [archives.get] once with the id it
    was given, and closes the client; it never submits an archive or opens a
    stream. *)
Theorem lookup_makes_three_calls
    (sdk : SDK) (environ : gmap string string) (id : string) :
  client_calls (get_archive_info sdk environ id)
  = [NewClient (environ !! "ARCHIVECHAIN_API_KEY")
       match environ !! "ARCHIVECHAIN_API_URL" with
       | Some api_url => api_url
       | None => "https://api.archivechain.org/v1"
       end
       None;
     ArchivesGet id;
     Close].
Proof.
  destruct (archives_get (info_client sdk environ) id) as [archive|e] eqn:Hget.
  - rewrite (get_archive_info_found _ _ _ _ Hget). reflexivity.
  - rewrite (get_archive_info_raises _ _ _ _ Hget). reflexivity.
Qed.


(** X10: on a successful lookup [get_archive_info] prints, after the opening
    line, the heading and the eight fields of the record in the order url,
    title, status, size, creation date, number of replicas, integrity score,
    view URL; of the replicas only their number is shown. *)
Theorem successful_lookup_report
    (sdk : SDK) (environ : gmap string string) (id : string) (archive : Archive) :
  archives_get (info_client sdk environ) id = Ok archive ->
  printed (get_archive_info sdk environ id)
  = ["🔍 Récupération des informations pour l'archive: " +:+ id;
     nl +:+ "📋 Informations de l'archive:";
     "   URL originale: " +:+ format (archive_url_field archive);
     "   Titre: " +:+ format (archive_title archive);
     "   Statut: " +:+ format (archive_status archive);
     "   Taille: " +:+ format (archive_size archive) +:+ " bytes";
     "   Créée le: " +:+ format (created_at archive);
     "   Répliques: " +:+ format (PyInt (Z.of_nat (length (replicas archive))));
     "   Score d'intégrité: " +:+ format (integrity_score archive);
     "   URL de visualisation: " +:+ format (archive_view archive)].
Proof.
  intros Hget. rewrite (get_archive_info_found _ _ _ _ Hget). reflexivity.
Qed.

Lemma successful_lookup_report_witness :
  printed (get_archive_info (Double.streaming []) Double.with_key
             "arc_1234567890abcdef")
  = ["🔍 Récupération des informations pour l'archive: " +:+ "arc_1234567890abcdef";
     nl +:+ "📋 Informations de l'archive:";
     "   URL originale: " +:+ format (archive_url_field Double.record);
     "   Titre: " +:+ format (archive_title Double.record);
     "   Statut: " +:+ format (archive_status Double.record);
     "   Taille: " +:+ format (archive_size Double.record) +:+ " bytes";
     "   Créée le: " +:+ format (created_at Double.record);
     "   Répliques: "
       +:+ format (PyInt (Z.of_nat (length (replicas Double.record))));
     "   Score d'intégrité: " +:+ format (integrity_score Double.record);
     "   URL de visualisation: " +:+ format (archive_view Double.record)].
Proof.
  apply successful_lookup_report. reflexivity.
Defined.

(** ** Release comes last *)

(** X11: in every run of [archive_url] and of [get_archive_info] the call of
    [close()] is the last event: nothing is printed and no other call is
    made on the client after it, error reports included. *)
Theorem close_is_last_event
    (sdk : SDK) (environ : gmap string string) (loop_time : pyvalue)
    (url id : string) :
  last (trace (archive_url sdk environ loop_time url)) = Some Close
  /\ last (trace (get_archive_info sdk environ id)) = Some Close.
Proof.
  assert (Hclose : forall client, trace (client_close client) = [Close]).
  { intros client. unfold client_close. destruct (close client); reflexivity. }
  split.
  - unfold archive_url.
    rewrite trace_tell_bind, trace_try_finally, Hclose.
    rewrite app_comm_cons. apply last_snoc.
  - unfold get_archive_info.
    rewrite trace_tell_bind, trace_try_finally, Hclose.
    rewrite app_comm_cons. apply last_snoc.
Qed.

(** ** The URL check *)

Lemma prefix_iff_append (p s : string) :
  String.prefix p s = true <-> exists rest, s = p +:+ rest.
Proof.
  revert s. induction p as [|a p IH]; intros s.
  - split; [intros _; exists s; reflexivity | destruct s; reflexivity].
  - destruct s as [|b s]; cbn.
    + split; [discriminate | intros (rest & H); discriminate].
    + destruct (ascii_dec a b) as [->|Hab].
      * rewrite IH. split.
        -- intros (rest & ->). exists rest. reflexivity.
        -- intros (rest & H). injection H as ->. exists rest. reflexivity.
      * split; [discriminate|]. intros (rest & H). injection H as ? ?. congruence.
Qed.

(** X12: the URL check of [main] accepts exactly the strings that consist of
    "http://" or "https://" followed by anything, the empty rest included:
    the comparison is case-sensitive and nothing after the scheme is
    examined. *)
Theorem has_http_scheme_iff (url : string) :
  has_http_scheme url = true
  <-> (exists rest, url = "http://" +:+ rest)
      \/ (exists rest, url = "https://" +:+ rest).
Proof.
  unfold has_http_scheme. rewrite orb_true_iff, !prefix_iff_append. reflexivity.
Qed.

(** ** Dispatch in [main] *)

Lemma bind_ret_l {A B} (a : A) (k : A -> Py B) : bind (ret a) k = k a.
Proof. unfold bind, ret. destruct (k a) as [t o]. reflexivity. Qed.

Lemma scheme_is_not_info (url : string) :
  has_http_scheme url = true -> (url =? "info")%string = false.
Proof.
  intros H. destruct (String.eqb_spec url "info") as [->|]; [discriminate | reflexivity].
Qed.

(** X13: with fewer than two elements in [sys.argv], [main] prints the four
    usage lines and exits with status 1 before it looks at the environment:
    the outcome is the same with and without an API key, and no call is made
    on the SDK. *)
Theorem usage_without_argument
    (sdk : SDK) (environ : gmap string string) (loop_time : pyvalue)
    (argv : list string) :
  (length argv < 2)%nat ->
  main sdk environ loop_time argv
  = ([Print "Usage: python simple_archive.py <URL> [archive_id_to_check]";
      Print (nl +:+ "Exemples:");
      Print "  python simple_archive.py https://example.com";
      Print "  python simple_archive.py info arc_1234567890abcdef"],
     SystemExit 1%Z).
Proof.
  intros Hlen. unfold main.
  destruct (Nat.ltb_spec (length argv) 2) as [_|Hge]; [reflexivity | lia].
Qed.

Lemma usage_without_argument_witness :
  main (Double.streaming []) Double.with_key Double.now ["simple_archive.py"]
  = ([Print "Usage: python simple_archive.py <URL> [archive_id_to_check]";
      Print (nl +:+ "Exemples:");
      Print "  python simple_archive.py https://example.com";
      Print "  python simple_archive.py info arc_1234567890abcdef"],
     SystemExit 1%Z).
Proof.
  apply usage_without_argument. cbn. lia.
Defined.

(** X14: with the API key set, [main] called with "info" and at least one more
    argument runs [get_archive_info] on the argument after "info" and does
    nothing else: the id is not checked in any way and further arguments
    are ignored. *)
Theorem main_runs_lookup_on_info_command
    (sdk : SDK) (environ : gmap string string) (loop_time : pyvalue)
    (prog id : string) (more : list string) :
  falsy (getenv environ "ARCHIVECHAIN_API_KEY") = false ->
  main sdk environ loop_time (prog :: "info" :: id :: more)
  = get_archive_info sdk environ id.
Proof.
  intros Hkey. unfold main. cbn [length Nat.ltb Nat.leb]. rewrite bind_ret_l.
  rewrite Hkey, bind_ret_l.
  cbn [item lookup list_lookup]. rewrite bind_ret_l.
  cbn [String.eqb Ascii.eqb Bool.eqb andb length Nat.leb].
  apply bind_ret_l.
Qed.

Lemma main_runs_lookup_on_info_command_witness :
  main (Double.streaming []) Double.with_key Double.now
    ["simple_archive.py"; "info"; "arc_1234567890abcdef"; "ignored"]
  = get_archive_info (Double.streaming []) Double.with_key "arc_1234567890abcdef".
Proof.
  apply main_runs_lookup_on_info_command. reflexivity.
Defined.

(** X15: with the API key set, [main] called with a first argument that starts
    with "http://" or "https://" runs [archive_url] on it and does nothing
    else; further arguments are ignored. *)
Theorem main_runs_archive_on_valid_url
    (sdk : SDK) (environ : gmap string string) (loop_time : pyvalue)
    (prog url : string) (more : list string) :
  falsy (getenv environ "ARCHIVECHAIN_API_KEY") = false ->
  has_http_scheme url = true ->
  main sdk environ loop_time (prog :: url :: more)
  = archive_url sdk environ loop_time url.
Proof.
  intros Hkey Hurl. unfold main. cbn [length Nat.ltb Nat.leb]. rewrite bind_ret_l.
  rewrite Hkey, bind_ret_l.
  cbn [item lookup list_lookup]. rewrite bind_ret_l.
  rewrite (scheme_is_not_info url Hurl). cbn [andb].
  rewrite bind_ret_l, Hurl. cbn [negb]. rewrite bind_ret_l. reflexivity.
Qed.

Lemma main_runs_archive_on_valid_url_witness :
  main (Double.streaming [Double.completed 4096 "U"]) Double.with_key Double.now
    ["simple_archive.py"; "https://example.com"; "ignored"]
  = archive_url (Double.streaming [Double.completed 4096 "U"]) Double.with_key
      Double.now "https://example.com".
Proof.
  apply main_runs_archive_on_valid_url; reflexivity.
Defined.

(** ** Every run of [main] *)







(** ** Progress lines *)

Lemma progress_reports_continue (u : ArchiveStatusUpdate) (t : list event)
    (o o' : outcome unit) :
  is_terminal u = false ->
  length (progress_reports (handled u ++ t, o))
  = ((if is_processing u then 1 else 0) + length (progress_reports (t, o')))%nat.
Proof.
  unfold is_terminal, is_processing, progress_reports, printed, trace, handled.
  intros Hu. apply orb_false_iff in Hu as [Hc Hf]. rewrite Hc, Hf. cbn [fst].
  destruct (status u =? "processing")%string; cbn [app]; [|reflexivity].
  change (omap ?f (StreamNext :: Print ?l :: t)) with (l :: omap f t).
  rewrite filter_cons_True; [reflexivity|].
  apply prefix_iff_append. eexists. reflexivity.
Qed.

Lemma progress_reports_terminal (t : ArchiveStatusUpdate) (o : outcome unit) :
  is_terminal t = true ->
  progress_reports (handled t, o) = [].
Proof.
  unfold is_terminal, progress_reports, printed, trace, handled. intros Ht.
  destruct (status t =? "processing")%string eqn:Hp.
  { apply String.eqb_eq in Hp. rewrite Hp in Ht. discriminate. }
  destruct (status t =? "completed")%string; [reflexivity|].
  destruct (status t =? "failed")%string; [reflexivity | discriminate].
Qed.

(** X18: the number of progress lines the loop prints is the number of
    "processing" updates delivered before the first terminal update: one
    line per such update, none for the terminal update or for updates of
    another status, none for whatever the stream would deliver later. *)
Theorem progress_lines_count_processing_updates
    (before : list ArchiveStatusUpdate) (t : ArchiveStatusUpdate)
    (after : list ArchiveStatusUpdate) (stream_end : option exn) :
  Forall (fun u => is_terminal u = false) before ->
  is_terminal t = true ->
  length (progress_reports (async_for_update (before ++ t :: after) stream_end))
  = length (filter (fun u => is_processing u = true) before).
Proof.
  intros Hbefore Ht.
  induction Hbefore as [|u before Hu _ IH].
  - cbn [app]. rewrite async_for_update_terminal by exact Ht.
    rewrite progress_reports_terminal by exact Ht. reflexivity.
  - change ((u :: before) ++ t :: after) with (u :: (before ++ t :: after)).
    rewrite async_for_update_continue by exact Hu.
    rewrite (progress_reports_continue u _ _
               (snd (async_for_update (before ++ t :: after) stream_end)) Hu).
    unfold trace.
    rewrite <- surjective_pairing, IH.
    destruct (is_processing u) eqn:Hp.
    + rewrite filter_cons_True by exact Hp. reflexivity.
    + rewrite filter_cons_False by (rewrite Hp; discriminate). reflexivity.
Qed.

Lemma progress_lines_count_processing_updates_witness :
  length (progress_reports
            (async_for_update
               ([Double.processing 5 "crawling"; Double.pending;
                 Double.processing 60 "storing"]
                ++ Double.failed "timeout" :: [Double.processing 90 "late"])
               None))
  = length (filter (fun u => is_processing u = true)
              [Double.processing 5 "crawling"; Double.pending;
               Double.processing 60 "storing"]).
Proof.
  apply progress_lines_count_processing_updates.
  - repeat constructor.
  - reflexivity.
Defined.

(** ** The stream is opened once and left once *)

(** X19: when [archives.create] returns and the stream opens, [archive_url] opens
    the stream exactly once, for the [archive_id] that [archives.create]
    returned, and leaves it exactly once, whichever way the loop ends
    (terminal update, exhausted stream, or exception). *)
Theorem stream_opened_once_and_left_once
    (sdk : SDK) (environ : gmap string string) (loop_time : pyvalue)
    (url : string) (archive_result : ArchiveResult) (stream : update_stream) :
  archives_create (archive_client sdk environ) url
    (default_metadata loop_time url) default_options = Ok archive_result ->
  stream_archive_updates (archive_client sdk environ) (archive_id archive_result)
  = Ok stream ->
  filter (fun ev => is_stream_boundary ev = true)
         (trace (archive_url sdk environ loop_time url))
  = [StreamArchiveUpdates (archive_id archive_result); StreamExit].
Proof.
  intros Hcreate Hstream.
  rewrite (archive_url_monitoring _ _ _ _ _ _ Hcreate Hstream). cbn [trace fst].
  rewrite !filter_app.
  assert (Hloop : filter (fun ev => is_stream_boundary ev = true)
                    (trace (async_for_update (updates stream) (ending stream)))
                  = []).
  { apply filter_none.
    eapply Forall_impl; [apply loop_events|].
    intros [] H; cbn in *; try discriminate; reflexivity. }
  rewrite Hloop.
  destruct (snd (async_for_update (updates stream) (ending stream))); reflexivity.
Qed.

Lemma stream_opened_once_and_left_once_witness :
  filter (fun ev => is_stream_boundary ev = true)
         (trace (archive_url
                   (Double.streaming
                      [Double.processing 5 "crawling"; Double.failed "timeout"])
                   Double.with_key Double.now "https://example.com"))
  = [StreamArchiveUpdates (archive_id Double.handle); StreamExit].
Proof.
  apply (stream_opened_once_and_left_once
           (Double.streaming
              [Double.processing 5 "crawling"; Double.failed "timeout"])
           Double.with_key Double.now "https://example.com" Double.handle
           {| updates := [Double.processing 5 "crawling"; Double.failed "timeout"];
              ending := None |});
    reflexivity.
Defined.
